(** * Dalvikpedia: the opcode index and its lookup

    A shallow embedding of [src/dalvikpedia.py]: the row loop of
    [DalvikOpcodeExplorer.fetch_opcodes], [DalvikOpcodeExplorer.find_opcode]
    and the search-term selection of [main].

    Conventions of the embedding.
    - Python text is modelled by [string] on its ASCII range: [lower] maps
      'A'..'Z' to 'a'..'z' and leaves every other character alone, and the
      whitespace of [strip]/[split] is the ASCII part of [str.isspace]
      (codes 9..13 and 28..32).
    - The single dictionary [self.opcodes] is an association list in
      insertion order with unique keys, which is what a Python [dict]
      iterates over.
    - The HTML fetch and parse are outside the model: the input is the list
      of table rows ([tr]), each row being the [get_text()] of its [td]
      cells.
    - A Python exception is a value of [exn]; [sys.exit(n)] is [SysExit n]. *)

From Stdlib Require Import Strings.String Strings.Ascii Lists.List Bool Arith Lia.
Import ListNotations.
Open Scope string_scope.
Open Scope bool_scope.

(* ================================================================== *)
(** ** Python string methods used by the program *)

Module PyStr.

(** [bool(s)] for a string: true exactly when it is non-empty. *)
Definition truthy (s : string) : bool :=
  match s with
  | EmptyString => false
  | String _ _ => true
  end.

(** ASCII part of [str.isspace]: TAB, LF, VT, FF, CR, FS, GS, RS, US, space. *)
Definition is_space (c : ascii) : bool :=
  let n := nat_of_ascii c in
  ((9 <=? n)%nat && (n <=? 13)%nat) || ((28 <=? n)%nat && (n <=? 32)%nat).

Definition lower_char (c : ascii) : ascii :=
  let n := nat_of_ascii c in
  if (65 <=? n)%nat && (n <=? 90)%nat then ascii_of_nat (n + 32) else c.

(** [s.lower()] *)
Fixpoint lower (s : string) : string :=
  match s with
  | EmptyString => EmptyString
  | String c r => String (lower_char c) (lower r)
  end.

(** [s.lstrip()] *)
Fixpoint lstrip (s : string) : string :=
  match s with
  | EmptyString => EmptyString
  | String c r => if is_space c then lstrip r else s
  end.

(** [s.rstrip()] *)
Fixpoint rstrip (s : string) : string :=
  match s with
  | EmptyString => EmptyString
  | String c r =>
      let r' := rstrip r in
      if is_space c && negb (truthy r') then EmptyString else String c r'
  end.

(** [s.strip()] *)
Definition strip (s : string) : string := rstrip (lstrip s).

(** [s.split()] with no argument: the maximal runs of non-whitespace. *)
Fixpoint split (s : string) : list string :=
  match s with
  | EmptyString => []
  | String c r =>
      if is_space c then split r
      else
        match r with
        | EmptyString => [String c EmptyString]
        | String c' _ =>
            if is_space c' then String c EmptyString :: split r
            else
              match split r with
              | t :: ts => String c t :: ts
              | [] => [String c EmptyString]
              end
        end
  end.

(** [s.replace('0x', '')]: the non-overlapping occurrences of "0x", found
    left to right, are deleted. *)
Fixpoint replace_0x_empty (s : string) : string :=
  match s with
  | EmptyString => EmptyString
  | String c r =>
      match r with
      | EmptyString => s
      | String c' r' =>
          if Ascii.eqb c "0" && Ascii.eqb c' "x" then replace_0x_empty r'
          else String c (replace_0x_empty r)
      end
  end.

Fixpoint zeros (n : nat) : string :=
  match n with
  | O => EmptyString
  | S k => String "0" (zeros k)
  end.

(** [s.zfill(width)]: zeros are put in front, after a leading sign. *)
Definition zfill (width : nat) (s : string) : string :=
  if (width <=? String.length s)%nat then s
  else
    let fill := zeros (width - String.length s) in
    match s with
    | String c r =>
        if Ascii.eqb c "+" || Ascii.eqb c "-" then String c (fill ++ r)
        else fill ++ s
    | EmptyString => fill
    end.

(** [s.startswith(p)] *)
Fixpoint startswith (s p : string) {struct p} : bool :=
  match p with
  | EmptyString => true
  | String a p' =>
      match s with
      | EmptyString => false
      | String b s' => Ascii.eqb a b && startswith s' p'
      end
  end.

(** [sub in s] on strings: [sub] occurs in [s] at some position. *)
Fixpoint contains (s sub : string) : bool :=
  startswith s sub ||
  match s with
  | EmptyString => false
  | String _ r => contains r sub
  end.

End PyStr.

(* ================================================================== *)
(** ** A Python [dict] with string keys *)

Module Dict.

Section WithValue.
Context {V : Type}.

Definition t := list (string * V).

Definition empty : t := [].

(** [d.get(k)] as an option. *)
Fixpoint get (k : string) (d : t) : option V :=
  match d with
  | [] => None
  | (k', v) :: d' => if String.eqb k' k then Some v else get k d'
  end.

(** [k in d] *)
Definition mem (k : string) (d : t) : bool :=
  match get k d with
  | Some _ => true
  | None => false
  end.

(** [d.get(k, default)] *)
Definition get_default (k : string) (default : V) (d : t) : V :=
  match get k d with
  | Some v => v
  | None => default
  end.

(** [d[k] = v]: an existing key keeps its place, a new key goes last. *)
Fixpoint set (k : string) (v : V) (d : t) : t :=
  match d with
  | [] => [(k, v)]
  | (k', v') :: d' =>
      if String.eqb k' k then (k, v) :: d' else (k', v') :: set k v d'
  end.

(** [d.items()], [d.keys()] *)
Definition items (d : t) : list (string * V) := d.
Definition keys (d : t) : list string := map fst d.

End WithValue.

Arguments t : clear implicits.

End Dict.

(* ================================================================== *)
(** ** Data model *)

(** The dictionary literal of lines 52-58. *)
Record OpcodeRecord : Type := mkOpcodeRecord {
  hex : string;
  name : string;
  full_name : string;
  explanation : string;
  example : string
}.

(** A value of [self.opcodes]: a filled record, or the empty dictionary
    [{}] that line 62 passes to [get] as its default. *)
Inductive OpcodeData : Type :=
| Entry (r : OpcodeRecord)
| EmptyDict.

Definition Opcodes : Type := Dict.t OpcodeData.

Inductive exn : Type :=
| UnboundLocalError (var : string)
| IndexError.

Inductive res (A : Type) : Type :=
| Ok (a : A)
| Raise (e : exn).
Arguments Ok {A} a.
Arguments Raise {A} e.

Definition bind {A B : Type} (m : res A) (f : A -> res B) : res B :=
  match m with
  | Ok a => f a
  | Raise e => Raise e
  end.

Notation "x <- m ;; k" := (bind m (fun x => k))
  (at level 61, m at next level, right associativity).

(** What a run of [fetch_opcodes] ends in. *)
Inductive outcome (A : Type) : Type :=
| Done (a : A)
| SysExit (code : nat).
Arguments Done {A} a.
Arguments SysExit {A} code.

(** The three ways out of [find_opcode]: [return self.opcodes[...]]
    ([Found]); the suggestions printed at lines 92-97 before [return None]
    ([Suggestions], carrying [matches]); a bare [return None]
    ([NotFound]). *)
Inductive LookupResult : Type :=
| Found (d : OpcodeData)
| Suggestions (matches : list OpcodeData)
| NotFound.

(* ================================================================== *)
(** ** [DalvikOpcodeExplorer.fetch_opcodes] *)

(** The variables that live across iterations of the row loop:
    [self.opcodes] and the local [name_lower], which is unbound ([None])
    until line 51 runs for the first time. *)
Record LoopState : Type := mkLoopState {
  opcodes : Opcodes;
  name_lower : option string
}.

Definition init_state : LoopState :=
  {| opcodes := Dict.empty; name_lower := None |}.

Definition cell (cols : list string) (i : nat) : string :=
  PyStr.strip (nth i cols "").

(** [opcode_name.split()[0] if opcode_name else ""] (line 47). *)
Definition base_name_of (opcode_name : string) : res string :=
  if PyStr.truthy opcode_name then
    match PyStr.split opcode_name with
    | t :: _ => Ok t
    | [] => Raise IndexError
    end
  else Ok "".

(** Lines 50-58. *)
Definition store_by_name (st : LoopState)
    (opcode_hex opcode_name explanation example base_name : string) : LoopState :=
  if PyStr.truthy base_name then
    let nl := PyStr.lower base_name in
    {| opcodes :=
         Dict.set nl
           (Entry {| hex := opcode_hex; name := base_name;
                     full_name := opcode_name; explanation := explanation;
                     example := example |})
           (opcodes st);
       name_lower := Some nl |}
  else st.

(** Lines 61-62. The right-hand side reads [name_lower] first. *)
Definition store_by_hex (st : LoopState) (opcode_hex : string) : res LoopState :=
  if PyStr.truthy opcode_hex then
    match name_lower st with
    | None => Raise (UnboundLocalError "name_lower")
    | Some nl =>
        Ok {| opcodes :=
                Dict.set ("hex:" ++ opcode_hex)
                  (Dict.get_default nl EmptyDict (opcodes st)) (opcodes st);
              name_lower := name_lower st |}
    end
  else Ok st.

(** The body of the [for row in rows] loop, lines 38-62. *)
Definition process_row (st : LoopState) (cols : list string) : res LoopState :=
  if (3 <=? List.length cols)%nat then
    let opcode_hex := cell cols 0 in
    let opcode_name := cell cols 1 in
    let explanation := if (2 <? List.length cols)%nat then cell cols 2 else "" in
    let example := if (3 <? List.length cols)%nat then cell cols 3 else "" in
    base_name <- base_name_of opcode_name ;;
    store_by_hex
      (store_by_name st opcode_hex opcode_name explanation example base_name)
      opcode_hex
  else Ok st.

Fixpoint process_rows (st : LoopState) (rows : list (list string)) : res LoopState :=
  match rows with
  | [] => Ok st
  | row :: rest => st' <- process_row st row ;; process_rows st' rest
  end.

(** [fetch_opcodes] from the rows of the table on: [rows = trs[1:]], the
    loop, and the handler of line 67 that turns any exception of the loop
    into [sys.exit(1)]. *)
Definition fetch_opcodes (trs : list (list string)) : outcome Opcodes :=
  match process_rows init_state (tl trs) with
  | Ok st => Done (opcodes st)
  | Raise _ => SysExit 1
  end.

(* ================================================================== *)
(** ** [DalvikOpcodeExplorer.find_opcode] *)

(** The loop of lines 87-90 over [self.opcodes.items()]. *)
Definition scan_matches (search_lower : string) (d : Opcodes) : list OpcodeData :=
  fold_left
    (fun matches (item : string * OpcodeData) =>
       let (key, data) := item in
       if negb (PyStr.startswith key "hex:") && PyStr.contains key search_lower
       then (matches ++ [data])%list else matches)
    (Dict.items d) [].

Definition find_opcode (d : Opcodes) (search_term : string) : LookupResult :=
  let search_lower := PyStr.strip (PyStr.lower search_term) in
  if PyStr.startswith search_lower "hex:" then
    match Dict.get search_lower d with
    | Some data => Found data
    | None => NotFound
    end
  else
    match Dict.get search_lower d with
    | Some data => Found data
    | None =>
        match scan_matches search_lower d with
        | [] => NotFound
        | matches => Suggestions matches
        end
    end.

(* ================================================================== *)
(** ** [main]: from the parsed arguments to the lookup *)

(** The [argparse] namespace: an option that was not given is [None]. *)
Record Args : Type := mkArgs {
  arg_name : option string;
  arg_hex : option string;
  arg_verbose : bool
}.

(** [add_mutually_exclusive_group(required=True)]: exactly one of the two
    options was given on the command line. *)
Definition parse_ok (a : Args) : bool :=
  match arg_name a, arg_hex a with
  | Some _, None | None, Some _ => true
  | _, _ => false
  end.

(** Line 163. *)
Definition normalize_hex (h : string) : string :=
  PyStr.zfill 2 (PyStr.strip (PyStr.replace_0x_empty (PyStr.lower h))).

(** Lines 159-164: [search_term] is assigned in two branches only; an
    option that is [None] or "" takes neither. *)
Definition search_term_of (a : Args) : res string :=
  match arg_name a with
  | Some (String _ _ as n) => Ok n
  | _ =>
      match arg_hex a with
      | Some (String _ _ as h) => Ok ("hex:" ++ normalize_hex h)
      | _ => Raise (UnboundLocalError "search_term")
      end
  end.

(** Lines 158-167. *)
Definition resolve (d : Opcodes) (a : Args) : res LookupResult :=
  t <- search_term_of a ;; Ok (find_opcode d t).

Inductive MainOutcome : Type :=
| UsageError
| Exited (code : nat)
| Unhandled (e : exn)
| Resolved (r : LookupResult).

(** [main] up to line 167: argument check, construction of the explorer
    (which fetches), search-term selection, lookup. *)
Definition main (a : Args) (trs : list (list string)) : MainOutcome :=
  if parse_ok a then
    match fetch_opcodes trs with
    | SysExit c => Exited c
    | Done d =>
        match resolve d a with
        | Ok r => Resolved r
        | Raise e => Unhandled e
        end
    end
  else UsageError.

(** The two kinds of query of the command line. *)
Definition byName (v : string) : Args :=
  {| arg_name := Some v; arg_hex := None; arg_verbose := false |}.
Definition byHex (v : string) : Args :=
  {| arg_name := None; arg_hex := Some v; arg_verbose := false |}.

(* ================================================================== *)
(** ** The two mappings, as views of the one dictionary *)

(** Line 89 tells the two kinds of key apart by the prefix "hex:". *)
Definition is_hex_key (k : string) : bool := PyStr.startswith k "hex:".

Definition mnemonic_mapping (d : Opcodes) : Opcodes :=
  filter (fun item => negb (is_hex_key (fst item))) d.

(** [k[4:]] *)
Definition drop_hex_prefix (k : string) : string :=
  match k with
  | String _ (String _ (String _ (String _ r))) => r
  | _ => ""
  end.

Definition hex_mapping (d : Opcodes) : Opcodes :=
  map (fun item => (drop_hex_prefix (fst item), snd item))
      (filter (fun item => is_hex_key (fst item)) d).

(** The key normalisation in the words of the specification:
    [pad(strip("0x", lower(input)), width=2, char='0')], that is, lowercase,
    drop one leading "0x", pad on the left with '0' up to two characters. *)
Definition spec_strip_0x (s : string) : string :=
  match s with
  | String a (String b r) =>
      if Ascii.eqb a "0" && Ascii.eqb b "x" then r else s
  | _ => s
  end.

Definition spec_pad2 (s : string) : string :=
  PyStr.zeros (2 - String.length s) ++ s.

Definition spec_hex_key (input : string) : string :=
  spec_pad2 (spec_strip_0x (PyStr.lower input)).

Definition is_lower_hex_digit (c : ascii) : bool :=
  let n := nat_of_ascii c in
  ((48 <=? n)%nat && (n <=? 57)%nat) || ((97 <=? n)%nat && (n <=? 102)%nat).

(** A hexadecimal digit of either case. *)
Definition is_hex_digit (c : ascii) : bool :=
  let n := nat_of_ascii c in
  ((48 <=? n)%nat && (n <=? 57)%nat) || ((65 <=? n)%nat && (n <=? 70)%nat)
  || ((97 <=? n)%nat && (n <=? 102)%nat).

Definition is_sign (c : ascii) : bool := Ascii.eqb c "+" || Ascii.eqb c "-".

Fixpoint all_chars (p : ascii -> bool) (s : string) : bool :=
  match s with
  | EmptyString => true
  | String c r => p c && all_chars p r
  end.

(** A string is in lower case when [lower] fixes each of its characters. *)
Definition lowered_char (c : ascii) : bool := Ascii.eqb (PyStr.lower_char c) c.

(** Whether a word of [split] ends before the first character of [s]. *)
Definition head_is_space (s : string) : bool :=
  match s with
  | EmptyString => true
  | String c _ => PyStr.is_space c
  end.

Definition table_header : list string :=
  ["Opcode (hex)"; "Opcode name"; "Explanation"; "Example"].

(** The rows of the scenario of the specification, behind a header row. *)
Definition scenario_table : list (list string) :=
  [ table_header;
    ["0A"; "const/16 vx,lit16"; "Puts 16-bit const into vx"; ""];
    ["06"; "move-result vx"; "Moves result into vx"; ""] ].

Definition const16_record : OpcodeRecord :=
  {| hex := "0A"; name := "const/16"; full_name := "const/16 vx,lit16";
     explanation := "Puts 16-bit const into vx"; example := "" |}.

Definition move_result_record : OpcodeRecord :=
  {| hex := "06"; name := "move-result"; full_name := "move-result vx";
     explanation := "Moves result into vx"; example := "" |}.

Definition nop_record : OpcodeRecord :=
  {| hex := "12"; name := "nop"; full_name := "nop";
     explanation := "No operation"; example := "" |}.

Definition scenario_opcodes : Opcodes :=
  [ ("const/16", Entry const16_record); ("hex:0A", Entry const16_record);
    ("move-result", Entry move_result_record); ("hex:06", Entry move_result_record) ].

Definition nop_table : list (list string) :=
  [ table_header; ["12"; "nop"; "No operation"; ""] ].

Definition nop_opcodes : Opcodes :=
  [ ("nop", Entry nop_record); ("hex:12", Entry nop_record) ].

(** A table whose one mnemonic contains "hex:" past its first character. *)
Definition inner_hex_record : OpcodeRecord :=
  {| hex := "0A"; name := "ahex:zz"; full_name := "ahex:zz vx";
     explanation := "Made-up opcode"; example := "" |}.

Definition inner_hex_table : list (list string) :=
  [ table_header; ["0A"; "ahex:zz vx"; "Made-up opcode"; ""] ].

Definition inner_hex_opcodes : Opcodes :=
  [ ("ahex:zz", Entry inner_hex_record); ("hex:0A", Entry inner_hex_record) ].

(** A table whose one mnemonic begins with "hex:". *)
Definition hex_named_record : OpcodeRecord :=
  {| hex := "0A"; name := "hex:foo"; full_name := "hex:foo vx";
     explanation := "Made-up opcode"; example := "" |}.

Definition hex_named_table : list (list string) :=
  [ table_header; ["0A"; "hex:foo vx"; "Made-up opcode"; ""] ].

(** Three mnemonics, one of them inside the other two. *)
Definition const_opcodes : Opcodes :=
  [ ("const/4", Entry {| hex := "12"; name := "const/4";
                         full_name := "const/4 vx,lit4";
                         explanation := "Puts 4-bit const into vx"; example := "" |});
    ("const", Entry {| hex := "14"; name := "const";
                       full_name := "const vx,lit32";
                       explanation := "Puts 32-bit const into vx"; example := "" |});
    ("const/16", Entry const16_record) ].

(** Every key of the dictionary is non-empty and every value is a filled
    record. *)
Definition filled_item (item : string * OpcodeData) : Prop :=
  fst item <> "" /\ snd item <> EmptyDict.

Definition all_entries (d : Opcodes) : Prop := Forall filled_item d.

(** What the row loop keeps true: the dictionary holds filled records only,
    and [name_lower], once bound, is one of its keys. *)
Definition loop_invariant (st : LoopState) : Prop :=
  all_entries (opcodes st) /\
  forall nl, name_lower st = Some nl -> Dict.mem nl (opcodes st) = true.

(** The record that lines 52-58 build for a row with mnemonic [tok]. *)
Definition record_of_row (cols : list string) (tok : string) : OpcodeRecord :=
  {| hex := cell cols 0; name := tok; full_name := cell cols 1;
     explanation := cell cols 2;
     example := if (3 <? List.length cols)%nat then cell cols 3 else "" |}.

Definition has_three_cells (cols : list string) : bool :=
  (3 <=? List.length cols)%nat.

(* ================================================================== *)
(** ** What the row loop stores *)

Definition no_space (s : string) : bool :=
  all_chars (fun c => negb (PyStr.is_space c)) s.

Definition stripped (s : string) : Prop := PyStr.strip s = s.

(** The shape of a record built at lines 52-58: the mnemonic is one word,
    the first of the full syntax, and every cell was stripped. *)
Definition record_wf (r : OpcodeRecord) : Prop :=
  name r <> "" /\ no_space (name r) = true /\
  stripped (hex r) /\ stripped (full_name r) /\
  stripped (explanation r) /\ stripped (example r) /\
  exists rest, PyStr.split (full_name r) = name r :: rest.

(** An item of a dictionary [d] left by the loop: a well-formed record,
    filed under its lowered mnemonic unless the key has the hex prefix, and
    whose lowered mnemonic is a key of [d]. *)
Definition item_wf (d : Opcodes) (item : string * OpcodeData) : Prop :=
  exists r, snd item = Entry r /\ record_wf r /\
    (is_hex_key (fst item) = false -> fst item = PyStr.lower (name r)) /\
    Dict.mem (PyStr.lower (name r)) d = true.

Definition index_wf (d : Opcodes) : Prop := Forall (item_wf d) d.

Definition loop_wf (st : LoopState) : Prop :=
  index_wf (opcodes st) /\
  forall nl, name_lower st = Some nl -> Dict.mem nl (opcodes st) = true.

(** Whether the loop body, run on the row [cols], assigns to the key [k]:
    line 52 with the lowered first word of column 1, line 62 with the hex
    cell behind "hex:". *)
Definition row_writes (cols : list string) (k : string) : bool :=
  has_three_cells cols &&
  ((match PyStr.split (cell cols 1) with
    | t :: _ => String.eqb (PyStr.lower t) k
    | [] => false
    end)
   || (PyStr.truthy (cell cols 0) && String.eqb ("hex:" ++ cell cols 0) k)).

(* ================================================================== *)
(** ** A table with a repeated mnemonic *)

Definition old_const16_row : list string :=
  ["0A"; "const/16 vx,lit8"; "Old text"; ""].

Definition new_const16_row : list string :=
  ["13"; " Const/16  vx,lit16 "; "Puts 16-bit const into vx";
   " 1303 0300 - const/16 v3, #int 3 "].

Definition return_void_row : list string :=
  ["0e"; "return-void"; "Return without a return value"; "0E00 - return-void"].

Definition repeated_table : list (list string) :=
  table_header :: ([old_const16_row] ++ new_const16_row :: [return_void_row])%list.

Definition new_const16_record : OpcodeRecord :=
  {| hex := "13"; name := "Const/16"; full_name := "Const/16  vx,lit16";
     explanation := "Puts 16-bit const into vx";
     example := "1303 0300 - const/16 v3, #int 3" |}.

Definition repeated_opcodes : Opcodes :=
  Eval vm_compute in
    match fetch_opcodes repeated_table with
    | Done d => d
    | SysExit _ => []
    end.

(* ================================================================== *)
(** ** Facts about the string methods *)

Module PyStrFacts.
Import PyStr.

Lemma lower_char_idem (c : ascii) : lower_char (lower_char c) = lower_char c.
Proof. destruct c as [[] [] [] [] [] [] [] []]; reflexivity. Qed.

Lemma truthy_true_iff (s : string) : truthy s = true <-> s <> "".
Proof. destruct s; simpl; split; congruence. Qed.

Lemma all_chars_app (p : ascii -> bool) (a b : string) :
  all_chars p (a ++ b) = all_chars p a && all_chars p b.
Proof.
  induction a as [|c a IH]; simpl; [reflexivity|].
  now rewrite IH, andb_assoc.
Qed.

Lemma all_chars_zeros (p : ascii -> bool) (n : nat) :
  p "0"%char = true -> all_chars p (zeros n) = true.
Proof. intros H0; induction n; simpl; [reflexivity | now rewrite H0]. Qed.

Lemma all_chars_lstrip (p : ascii -> bool) (s : string) :
  all_chars p s = true -> all_chars p (lstrip s) = true.
Proof.
  induction s as [|c r IH]; simpl; [trivial|].
  intros H. apply andb_true_iff in H as [Hc Hr].
  destruct (is_space c); [auto | simpl; now rewrite Hc, Hr].
Qed.

Lemma all_chars_rstrip (p : ascii -> bool) (s : string) :
  all_chars p s = true -> all_chars p (rstrip s) = true.
Proof.
  induction s as [|c r IH]; simpl; [trivial|].
  intros H. apply andb_true_iff in H as [Hc Hr].
  destruct (is_space c && negb (truthy (rstrip r))); simpl; [reflexivity|].
  now rewrite Hc, IH.
Qed.

Lemma all_chars_strip (p : ascii -> bool) (s : string) :
  all_chars p s = true -> all_chars p (strip s) = true.
Proof. intros H. unfold strip. now apply all_chars_rstrip, all_chars_lstrip. Qed.

(** [replace] looks two characters ahead, so the induction carries the
    statement for a string and for that string behind one more character. *)
Lemma all_chars_replace_0x_empty (p : ascii -> bool) (s : string) :
  all_chars p s = true -> all_chars p (replace_0x_empty s) = true.
Proof.
  enough (H : (all_chars p s = true -> all_chars p (replace_0x_empty s) = true) /\
              (forall c, all_chars p (String c s) = true ->
                         all_chars p (replace_0x_empty (String c s)) = true))
    by apply H.
  induction s as [|c' r' [IH1 IH2]].
  - split; [trivial | intros c H; exact H].
  - split; [apply IH2|].
    intros c H. cbn [replace_0x_empty].
    destruct (Ascii.eqb c "0" && Ascii.eqb c' "x").
    + apply IH1. simpl in H.
      apply andb_true_iff in H as [_ H]. now apply andb_true_iff in H as [_ H].
    + cbn [all_chars] in H |- *. apply andb_true_iff in H as [Hc H].
      rewrite Hc. simpl. now apply IH2.
Qed.

Lemma all_chars_zfill (p : ascii -> bool) (w : nat) (s : string) :
  p "0"%char = true -> all_chars p s = true -> all_chars p (zfill w s) = true.
Proof.
  intros H0 Hs. unfold zfill.
  destruct (w <=? String.length s)%nat; [exact Hs|].
  destruct s as [|c r]; [now apply all_chars_zeros|].
  simpl in Hs. apply andb_true_iff in Hs as [Hc Hr].
  destruct (Ascii.eqb c "+" || Ascii.eqb c "-").
  - simpl. now rewrite Hc, all_chars_app, all_chars_zeros, Hr.
  - rewrite all_chars_app, all_chars_zeros by assumption. simpl. now rewrite Hc, Hr.
Qed.

Lemma lowered_lower (s : string) : all_chars lowered_char (lower s) = true.
Proof.
  induction s as [|c r IH]; simpl; [reflexivity|].
  unfold lowered_char at 1. now rewrite lower_char_idem, Ascii.eqb_refl.
Qed.

Lemma lower_fixes_lowered (s : string) :
  all_chars lowered_char s = true -> lower s = s.
Proof.
  induction s as [|c r IH]; simpl; [reflexivity|].
  intros H. apply andb_true_iff in H as [Hc Hr].
  apply Ascii.eqb_eq in Hc. now rewrite Hc, IH.
Qed.

Lemma rstrip_idem (s : string) : rstrip (rstrip s) = rstrip s.
Proof.
  induction s as [|c r IH]; simpl; [reflexivity|].
  destruct (is_space c && negb (truthy (rstrip r))) eqn:E; [reflexivity|].
  simpl. now rewrite IH, E.
Qed.

Lemma rstrip_strip (s : string) : rstrip (strip s) = strip s.
Proof. apply rstrip_idem. Qed.

(** Behind a character that is no whitespace, [rstrip] works on the rest. *)
Lemma rstrip_cons_nonspace (c : ascii) (r : string) :
  is_space c = false -> rstrip (String c r) = String c (rstrip r).
Proof. intros H. simpl. now rewrite H. Qed.

Lemma rstrip_zfill2 (s : string) : rstrip s = s -> rstrip (zfill 2 s) = zfill 2 s.
Proof.
  intros H. destruct s as [|a [|b r]]; [reflexivity| |exact H].
  assert (Ha : is_space a = false).
  { simpl in H. destruct (is_space a); [discriminate | reflexivity]. }
  unfold zfill. cbn [String.length Nat.leb Nat.sub zeros String.append].
  destruct (Ascii.eqb a "+" || Ascii.eqb a "-").
  - now rewrite rstrip_cons_nonspace.
  - rewrite rstrip_cons_nonspace by reflexivity. now rewrite H.
Qed.

(** *** [split] *)

Lemma split_cons_space (c : ascii) (r : string) :
  is_space c = true -> split (String c r) = split r.
Proof. intros H. simpl. now rewrite H. Qed.

Lemma split_cons_nonspace (c : ascii) (r : string) :
  is_space c = false ->
  split (String c r) =
    if head_is_space r then String c "" :: split r
    else match split r with
         | t :: ts => String c t :: ts
         | [] => [String c ""]
         end.
Proof.
  intros H. cbn [split]. rewrite H.
  destruct r as [|c' r']; [reflexivity|]. cbn [head_is_space].
  reflexivity.
Qed.

Lemma head_is_space_rstrip (s : string) :
  head_is_space (rstrip s) = head_is_space s.
Proof.
  destruct s as [|c r]; [reflexivity|]. simpl.
  destruct (is_space c) eqn:Hc; simpl.
  - destruct (truthy (rstrip r)); simpl; [exact Hc | reflexivity].
  - exact Hc.
Qed.

Lemma split_lstrip (s : string) : split (lstrip s) = split s.
Proof.
  induction s as [|c r IH]; [reflexivity|].
  cbn [lstrip]. destruct (is_space c) eqn:Hc; [|reflexivity].
  now rewrite split_cons_space.
Qed.

Lemma split_rstrip (s : string) : split (rstrip s) = split s.
Proof.
  induction s as [|c r IH]; [reflexivity|].
  destruct (is_space c) eqn:Hc.
  - rewrite (split_cons_space c r Hc). cbn [rstrip]. rewrite Hc.
    destruct (rstrip r) as [|a r'] eqn:Hr; cbn [truthy negb andb].
    + exact IH.
    + rewrite split_cons_space by exact Hc. exact IH.
  - rewrite rstrip_cons_nonspace by exact Hc.
    rewrite !split_cons_nonspace by exact Hc.
    now rewrite head_is_space_rstrip, IH.
Qed.

Lemma split_strip (s : string) : split (strip s) = split s.
Proof. unfold strip. now rewrite split_rstrip, split_lstrip. Qed.

(** The first word that [split] returns is never empty. *)
Lemma split_head_truthy (s t : string) (ts : list string) :
  split s = t :: ts -> truthy t = true.
Proof.
  revert t ts. induction s as [|c r IH]; intros t ts H; [discriminate|].
  destruct (is_space c) eqn:Hc.
  - rewrite split_cons_space in H by exact Hc. eauto.
  - rewrite split_cons_nonspace in H by exact Hc.
    destruct (head_is_space r); [now inversion H|].
    destruct (split r); now inversion H.
Qed.

(** *** [startswith] *)

Lemma startswith_hex_decompose (k : string) :
  startswith k "hex:" = true -> k = "hex:" ++ drop_hex_prefix k.
Proof.
  destruct k as [|a [|b [|c [|d r]]]]; cbn [startswith drop_hex_prefix];
    rewrite ?andb_false_r; try discriminate.
  intros H. repeat (apply andb_true_iff in H as [?E H]).
  apply Ascii.eqb_eq in E, E0, E1, E2. now subst.
Qed.

Lemma startswith_hex_append (s : string) : startswith ("hex:" ++ s) "hex:" = true.
Proof. reflexivity. Qed.

End PyStrFacts.

(* ================================================================== *)
(** ** Facts about the dictionary and its two views *)

Module DictFacts.

Section WithValue.
Context {V : Type}.
Implicit Types (d : Dict.t V) (k : string) (v : V).

Lemma get_set_same k v d : Dict.get k (Dict.set k v d) = Some v.
Proof.
  induction d as [|[k' v'] d IH]; simpl.
  - now rewrite String.eqb_refl.
  - destruct (String.eqb k' k) eqn:E; simpl.
    + now rewrite String.eqb_refl.
    + now rewrite E.
Qed.

Lemma get_set_other k k' v d :
  k <> k' -> Dict.get k (Dict.set k' v d) = Dict.get k d.
Proof.
  intros Hne. induction d as [|[k0 v0] d IH]; simpl.
  - apply String.eqb_neq in Hne. now rewrite String.eqb_sym, Hne.
  - destruct (String.eqb k0 k') eqn:E; simpl.
    + apply String.eqb_eq in E. subst k0.
      assert (E' : String.eqb k' k = false)
        by (apply String.eqb_neq; congruence).
      now rewrite E'.
    + now rewrite IH.
Qed.

(** Writing a value over a dictionary cannot hide the same value. *)
Lemma get_set_keeps k k' v d :
  Dict.get k d = Some v -> Dict.get k (Dict.set k' v d) = Some v.
Proof.
  intros H. destruct (String.eqb_spec k k') as [->|Hne].
  - apply get_set_same.
  - now rewrite get_set_other.
Qed.

Lemma mem_set k k' v d :
  Dict.mem k d = true -> Dict.mem k (Dict.set k' v d) = true.
Proof.
  unfold Dict.mem. intros H. destruct (String.eqb_spec k k') as [->|Hne].
  - now rewrite get_set_same.
  - now rewrite get_set_other.
Qed.

Lemma get_In k v d : Dict.get k d = Some v -> In (k, v) d.
Proof.
  induction d as [|[k' v'] d IH]; simpl; [discriminate|].
  destruct (String.eqb_spec k' k) as [->|Hne].
  - intros H. inversion H. now left.
  - intros H. right. now apply IH.
Qed.

Lemma Forall_set (P : string * V -> Prop) k v d :
  P (k, v) -> Forall P d -> Forall P (Dict.set k v d).
Proof.
  intros Hkv Hd. induction Hd as [|[k' v'] d Hx Hd IH]; simpl.
  - now constructor.
  - destruct (String.eqb k' k); now constructor.
Qed.

End WithValue.

Import PyStr PyStrFacts.

Lemma is_hex_key_append (k : string) : is_hex_key ("hex:" ++ k) = true.
Proof. reflexivity. Qed.

Lemma eqb_hex_append (a b : string) :
  String.eqb ("hex:" ++ a) ("hex:" ++ b) = String.eqb a b.
Proof. reflexivity. Qed.

(** A key without the prefix is read from the mnemonic view as from the
    dictionary itself. *)
Lemma get_mnemonic_mapping (d : Opcodes) (k : string) :
  is_hex_key k = false -> Dict.get k (mnemonic_mapping d) = Dict.get k d.
Proof.
  intros Hk. induction d as [|[k' v'] d IH]; [reflexivity|].
  unfold mnemonic_mapping in *. cbn [filter fst].
  destruct (is_hex_key k') eqn:E; cbn [negb Dict.get].
  - rewrite IH. destruct (String.eqb_spec k' k) as [->|Hne]; [congruence | reflexivity].
  - now rewrite IH.
Qed.

Lemma get_mnemonic_mapping_hex (d : Opcodes) (k : string) :
  is_hex_key k = true -> Dict.get k (mnemonic_mapping d) = None.
Proof.
  intros Hk. induction d as [|[k' v'] d IH]; [reflexivity|].
  unfold mnemonic_mapping in *. cbn [filter fst].
  destruct (is_hex_key k') eqn:E; cbn [negb Dict.get]; [exact IH|].
  destruct (String.eqb_spec k' k) as [->|Hne]; [congruence | exact IH].
Qed.

(** The hex view under key [k] is the dictionary under ["hex:" ++ k]. *)
Lemma get_hex_mapping (d : Opcodes) (k : string) :
  Dict.get k (hex_mapping d) = Dict.get ("hex:" ++ k) d.
Proof.
  induction d as [|[k' v'] d IH]; [reflexivity|].
  unfold hex_mapping in *. cbn [filter fst].
  destruct (is_hex_key k') eqn:E.
  - pose proof (startswith_hex_decompose k' E) as Hk.
    cbn [map fst snd Dict.get]. rewrite IH.
    rewrite Hk at 2. now rewrite eqb_hex_append.
  - cbn [Dict.get]. rewrite IH.
    destruct (String.eqb_spec k' ("hex:" ++ k)) as [->|Hne]; [|reflexivity].
    rewrite is_hex_key_append in E. discriminate.
Qed.

(** The loop of [find_opcode] collects, in order, the records of the
    mnemonic view whose key contains the query. *)
Lemma scan_matches_from (s : string) (d : Opcodes) (acc : list OpcodeData) :
  fold_left
    (fun matches (item : string * OpcodeData) =>
       let (key, data) := item in
       if negb (startswith key "hex:") && contains key s
       then (matches ++ [data])%list else matches)
    d acc
  = (acc ++ map snd (filter (fun item => contains (fst item) s)
                            (mnemonic_mapping d)))%list.
Proof.
  revert acc. induction d as [|[k v] d IH]; intros acc; cbn [fold_left].
  - cbn. now rewrite app_nil_r.
  - rewrite IH. unfold mnemonic_mapping, is_hex_key. cbn [filter fst].
    destruct (startswith k "hex:"); cbn [negb andb]; [reflexivity|].
    cbn [filter fst]. destruct (contains k s); cbn [map snd]; [|reflexivity].
    now rewrite <- app_assoc.
Qed.

Lemma scan_matches_filter (s : string) (d : Opcodes) :
  scan_matches s d =
    map snd (filter (fun item => contains (fst item) s) (mnemonic_mapping d)).
Proof. unfold scan_matches, Dict.items. now rewrite scan_matches_from. Qed.

End DictFacts.

(* ================================================================== *)
(** ** Facts about the search term of a hex query *)

Module QueryFacts.
Import PyStr PyStrFacts.

Lemma normalize_hex_lowered (h : string) :
  all_chars lowered_char (normalize_hex h) = true.
Proof.
  unfold normalize_hex.
  apply all_chars_zfill; [reflexivity|].
  apply all_chars_strip, all_chars_replace_0x_empty, lowered_lower.
Qed.

Lemma normalize_hex_rstrip (h : string) :
  rstrip (normalize_hex h) = normalize_hex h.
Proof. unfold normalize_hex. apply rstrip_zfill2, rstrip_strip. Qed.

(** [find_opcode] lowers and strips the search term once more; on the term
    that [main] builds for a hex query this changes nothing. *)
Lemma hex_term_stable (h : string) :
  strip (lower ("hex:" ++ normalize_hex h)) = "hex:" ++ normalize_hex h.
Proof.
  change (lower ("hex:" ++ normalize_hex h))
    with ("hex:" ++ lower (normalize_hex h)).
  rewrite (lower_fixes_lowered _ (normalize_hex_lowered h)).
  unfold strip. change (lstrip ("hex:" ++ normalize_hex h))
    with ("hex:" ++ normalize_hex h).
  change ("hex:" ++ normalize_hex h)
    with (String "h" (String "e" (String "x" (String ":" (normalize_hex h))))).
  rewrite !rstrip_cons_nonspace by reflexivity.
  now rewrite normalize_hex_rstrip.
Qed.

(** *** Where the program and the stated normalisation agree *)

Lemma all_chars_impl (p q : ascii -> bool) (s : string) :
  (forall c, p c = true -> q c = true) ->
  all_chars p s = true -> all_chars q s = true.
Proof.
  intros Hpq. induction s as [|c r IH]; simpl; [trivial|].
  intros H. apply andb_true_iff in H as [Hc Hr].
  now rewrite (Hpq c Hc), IH.
Qed.

Lemma hex_digit_lower (c : ascii) :
  is_hex_digit c = true -> is_lower_hex_digit (lower_char c) = true.
Proof. destruct c as [[] [] [] [] [] [] [] []]; vm_compute; trivial. Qed.

Lemma lower_hex_digit_plain (c : ascii) :
  is_lower_hex_digit c = true ->
  negb (Ascii.eqb c "x") && negb (is_space c) && negb (is_sign c) = true.
Proof. destruct c as [[] [] [] [] [] [] [] []]; vm_compute; trivial. Qed.

Lemma replace_0x_empty_no_x (s : string) :
  all_chars (fun c => negb (Ascii.eqb c "x")) s = true -> replace_0x_empty s = s.
Proof.
  induction s as [|c r IH]; [reflexivity|].
  cbn [all_chars]. intros H. apply andb_true_iff in H as [_ Hr].
  destruct r as [|c' r']; [reflexivity|].
  change (replace_0x_empty (String c (String c' r')))
    with (if Ascii.eqb c "0" && Ascii.eqb c' "x" then replace_0x_empty r'
          else String c (replace_0x_empty (String c' r'))).
  rewrite IH by exact Hr.
  cbn [all_chars] in Hr. apply andb_true_iff in Hr as [Hc' _].
  apply negb_true_iff in Hc'. now rewrite Hc', andb_false_r.
Qed.

Lemma strip_no_space (s : string) :
  all_chars (fun c => negb (is_space c)) s = true -> strip s = s.
Proof.
  intros H. unfold strip.
  assert (Hl : lstrip s = s).
  { destruct s as [|c r]; [reflexivity|]. simpl in H |- *.
    apply andb_true_iff in H as [Hc _]. apply negb_true_iff in Hc.
    now rewrite Hc. }
  rewrite Hl. induction s as [|c r IH]; [reflexivity|].
  cbn [all_chars] in H. apply andb_true_iff in H as [Hc Hr].
  apply negb_true_iff in Hc. rewrite rstrip_cons_nonspace by exact Hc.
  rewrite IH; [reflexivity | exact Hr |].
  destruct r as [|c' r']; [reflexivity|]. simpl in Hr |- *.
  apply andb_true_iff in Hr as [Hc' _]. apply negb_true_iff in Hc'.
  now rewrite Hc'.
Qed.

Lemma zfill2_no_sign (s : string) :
  all_chars (fun c => negb (is_sign c)) s = true -> zfill 2 s = spec_pad2 s.
Proof.
  intros H. destruct s as [|a [|b r]]; try reflexivity.
  simpl in H. rewrite andb_true_r in H. apply negb_true_iff in H.
  unfold zfill, spec_pad2. cbn [String.length Nat.leb Nat.sub].
  unfold is_sign in H. now rewrite H.
Qed.

Lemma spec_strip_0x_no_x (s : string) :
  all_chars (fun c => negb (Ascii.eqb c "x")) s = true -> spec_strip_0x s = s.
Proof.
  destruct s as [|a [|b r]]; try reflexivity.
  cbn [all_chars spec_strip_0x]. intros H.
  apply andb_true_iff in H as [_ H]. apply andb_true_iff in H as [Hb _].
  apply negb_true_iff in Hb. now rewrite Hb, andb_false_r.
Qed.

(** On a value made of hexadecimal digits, bare or behind "0x" or "0X",
    line 163 computes the key that the specification states. *)
Lemma normalize_hex_on_hex_digits (s : string) :
  all_chars is_hex_digit s = true ->
  normalize_hex s = spec_hex_key s /\
  normalize_hex ("0x" ++ s) = spec_hex_key s /\
  normalize_hex ("0X" ++ s) = spec_hex_key s /\
  spec_hex_key ("0x" ++ s) = spec_hex_key s /\
  spec_hex_key ("0X" ++ s) = spec_hex_key s.
Proof.
  intros Hs.
  assert (Hlow : all_chars is_lower_hex_digit (lower s) = true).
  { clear -Hs. induction s as [|c r IH]; [reflexivity|].
    cbn [all_chars lower] in *. apply andb_true_iff in Hs as [Hc Hr].
    now rewrite (hex_digit_lower c Hc), IH. }
  assert (Hx : all_chars (fun c => negb (Ascii.eqb c "x")) (lower s) = true).
  { revert Hlow. apply all_chars_impl. intros c Hc.
    pose proof (lower_hex_digit_plain c Hc) as H.
    apply andb_true_iff in H as [H _]. now apply andb_true_iff in H as [H _]. }
  assert (Hsp : all_chars (fun c => negb (is_space c)) (lower s) = true).
  { revert Hlow. apply all_chars_impl. intros c Hc.
    pose proof (lower_hex_digit_plain c Hc) as H.
    apply andb_true_iff in H as [H _]. now apply andb_true_iff in H as [_ H]. }
  assert (Hsg : all_chars (fun c => negb (is_sign c)) (lower s) = true).
  { revert Hlow. apply all_chars_impl. intros c Hc.
    pose proof (lower_hex_digit_plain c Hc) as H.
    now apply andb_true_iff in H as [_ H]. }
  assert (Hbare : normalize_hex s = spec_hex_key s).
  { unfold normalize_hex, spec_hex_key.
    now rewrite replace_0x_empty_no_x, strip_no_space, zfill2_no_sign,
      spec_strip_0x_no_x. }
  assert (Hpre : forall p, lower p = "0x" ->
            normalize_hex (p ++ s) = spec_hex_key s /\
            spec_hex_key (p ++ s) = spec_hex_key s).
  { intros p Hp.
    assert (Hl : lower (p ++ s) = "0x" ++ lower s).
    { destruct p as [|a [|b [|c p']]]; try discriminate Hp.
      cbn [append lower] in Hp |- *. injection Hp as Ha Hb.
      now rewrite Ha, Hb. }
    split.
    - rewrite <- Hbare. unfold normalize_hex. rewrite Hl. reflexivity.
    - unfold spec_hex_key. rewrite Hl.
      change (spec_strip_0x ("0x" ++ lower s)) with (lower s).
      now rewrite spec_strip_0x_no_x. }
  destruct (Hpre "0x" eq_refl) as [H1 H2].
  destruct (Hpre "0X" eq_refl) as [H3 H4].
  repeat apply conj; assumption.
Qed.

End QueryFacts.

(* ================================================================== *)
(** ** The row loop *)

Section RowLoop.
Import PyStr PyStrFacts DictFacts.

Lemma process_row_short (st : LoopState) (cols : list string) :
  has_three_cells cols = false -> process_row st cols = Ok st.
Proof. unfold has_three_cells, process_row. now intros ->. Qed.

Lemma process_rows_filter (rows : list (list string)) :
  forall st, process_rows st rows = process_rows st (filter has_three_cells rows).
Proof.
  induction rows as [|cols rows IH]; intros st; [reflexivity|].
  cbn [filter]. destruct (has_three_cells cols) eqn:E; cbn [process_rows].
  - destruct (process_row st cols); cbn [bind]; [apply IH | reflexivity].
  - rewrite process_row_short by exact E. cbn [bind]. apply IH.
Qed.

(** C8. The index built from a table is the index built from the same
    table without its rows of fewer than three cells: such a row raises
    nothing and leaves nothing behind. *)
Theorem short_rows_skipped (header : list string) (rows : list (list string)) :
  fetch_opcodes (header :: rows) =
  fetch_opcodes (header :: filter has_three_cells rows).
Proof.
  unfold fetch_opcodes. cbn [tl]. now rewrite <- process_rows_filter.
Qed.

Lemma base_name_of_cell (cols : list string) (tok : string) (rest : list string) :
  split (nth 1 cols "") = tok :: rest -> base_name_of (cell cols 1) = Ok tok.
Proof.
  intros Hsplit. unfold base_name_of, cell.
  rewrite split_strip, Hsplit.
  destruct (strip (nth 1 cols "")) eqn:E; [|reflexivity].
  rewrite <- split_strip, E in Hsplit. discriminate.
Qed.

(** C7. For a row of at least three cells whose column 1 has [tok] as its
    first whitespace-delimited word, the loop body stores, under the key
    [lower tok], the record whose [name] is [tok] as written; and every
    query that lowers and strips to [lower tok] finds that record. *)
Theorem mnemonic_is_first_token
    (st : LoopState) (cols : list string) (tok : string) (rest : list string) :
  3 <= List.length cols ->
  split (nth 1 cols "") = tok :: rest ->
  exists st',
    process_row st cols = Ok st' /\
    name (record_of_row cols tok) = tok /\
    Dict.get (lower tok) (opcodes st') = Some (Entry (record_of_row cols tok)) /\
    forall q, strip (lower q) = lower tok ->
              find_opcode (opcodes st') q = Found (Entry (record_of_row cols tok)).
Proof.
  intros Hlen Hsplit.
  assert (Hstored : exists st',
    process_row st cols = Ok st' /\
    Dict.get (lower tok) (opcodes st') = Some (Entry (record_of_row cols tok))).
  { unfold process_row.
    assert (H3 : (3 <=? List.length cols)%nat = true) by now apply Nat.leb_le.
    assert (H2 : (2 <? List.length cols)%nat = true) by (apply Nat.ltb_lt; lia).
    rewrite H3, H2, (base_name_of_cell cols tok rest Hsplit). cbn [bind].
    unfold store_by_name. rewrite (split_head_truthy _ _ _ Hsplit).
    unfold store_by_hex. cbn [name_lower opcodes].
    destruct (truthy (cell cols 0)).
    - eexists. split; [reflexivity|]. cbn [opcodes].
      unfold Dict.get_default. rewrite get_set_same.
      apply get_set_keeps, get_set_same.
    - eexists. split; [reflexivity|]. cbn [opcodes]. apply get_set_same. }
  destruct Hstored as [st' [Hrow Hget]].
  exists st'. repeat split; try assumption.
  intros q Hq. unfold find_opcode. rewrite Hq, Hget.
  now destruct (startswith (lower tok) "hex:").
Qed.

(** *** What the loop keeps true *)

Lemma lower_nonempty (s : string) : s <> "" -> lower s <> "".
Proof. destruct s; [congruence | discriminate]. Qed.

Lemma store_by_name_invariant
    (st : LoopState) (opcode_hex opcode_name expl ex base_name : string) :
  loop_invariant st ->
  loop_invariant (store_by_name st opcode_hex opcode_name expl ex base_name).
Proof.
  intros [Hall Hnl]. unfold store_by_name.
  destruct (truthy base_name) eqn:Hb; [|now split].
  split; cbn [opcodes name_lower].
  - apply Forall_set; [|exact Hall]. split; cbn [fst snd]; [|discriminate].
    now apply lower_nonempty, truthy_true_iff.
  - intros nl [= <-]. unfold Dict.mem. now rewrite get_set_same.
Qed.

Lemma store_by_hex_invariant (st st' : LoopState) (opcode_hex : string) :
  loop_invariant st -> store_by_hex st opcode_hex = Ok st' -> loop_invariant st'.
Proof.
  intros [Hall Hnl]. unfold store_by_hex.
  destruct (truthy opcode_hex); [|intros [= <-]; now split].
  destruct (name_lower st) as [nl|] eqn:E; [|discriminate].
  intros [= <-]. specialize (Hnl nl eq_refl).
  split; cbn [opcodes name_lower].
  - apply Forall_set; [|exact Hall]. split; cbn [fst snd]; [discriminate|].
    unfold Dict.mem in Hnl. unfold Dict.get_default.
    destruct (Dict.get nl (opcodes st)) as [v|] eqn:G; [|discriminate].
    apply get_In in G. unfold all_entries in Hall.
    rewrite Forall_forall in Hall. exact (proj2 (Hall _ G)).
  - intros nl' [= <-]. now apply mem_set.
Qed.

Lemma process_row_invariant (st st' : LoopState) (cols : list string) :
  loop_invariant st -> process_row st cols = Ok st' -> loop_invariant st'.
Proof.
  intros Hinv. unfold process_row.
  destruct (3 <=? List.length cols)%nat; [|now intros [= <-]].
  destruct (base_name_of (cell cols 1)) as [bn|e]; cbn [bind]; [|discriminate].
  apply store_by_hex_invariant, store_by_name_invariant, Hinv.
Qed.

Lemma process_rows_invariant (rows : list (list string)) :
  forall st st', loop_invariant st -> process_rows st rows = Ok st' ->
                 loop_invariant st'.
Proof.
  induction rows as [|cols rows IH]; intros st st' Hinv; cbn [process_rows].
  - now intros [= <-].
  - destruct (process_row st cols) as [st1|e] eqn:E; cbn [bind]; [|discriminate].
    apply IH. exact (process_row_invariant _ _ _ Hinv E).
Qed.

Lemma init_state_invariant : loop_invariant init_state.
Proof. split; [constructor | discriminate]. Qed.

(** Whatever the table, the dictionary that [fetch_opcodes] leaves holds no
    empty key and no [{}]: the default of line 62 is never the value read. *)
Lemma placeholder_never_stored (trs : list (list string)) (d : Opcodes) :
  fetch_opcodes trs = Done d -> all_entries d.
Proof.
  unfold fetch_opcodes.
  destruct (process_rows init_state (tl trs)) as [st|e] eqn:E; [|discriminate].
  intros [= <-].
  exact (proj1 (process_rows_invariant _ _ _ init_state_invariant E)).
Qed.

Lemma fetched_key_nonempty (trs : list (list string)) (d : Opcodes) (k : string)
    (v : OpcodeData) :
  fetch_opcodes trs = Done d -> Dict.get k d = Some v -> k <> "".
Proof.
  intros Hf Hg. apply placeholder_never_stored in Hf.
  apply get_In in Hg. unfold all_entries in Hf. rewrite Forall_forall in Hf.
  exact (proj1 (Hf _ Hg)).
Qed.

End RowLoop.

(* ================================================================== *)
(** ** Lookup: hex queries, exact names, suggestions *)

Section Lookup.
Import PyStr PyStrFacts DictFacts QueryFacts.

Variable d : Opcodes.

(** C4 (as amended). A [--hex] query with a non-empty value [h] is looked
    up under [normalize_hex h] -- [h] in lower case, every "0x" deleted,
    surrounding whitespace trimmed, zero-filled to two characters -- directly
    in the hex view of the dictionary: [Found] when the key is there,
    [NotFound] when it is not, and never [Suggestions]. *)
Theorem hex_query_direct_lookup (h : string) :
  h <> "" ->
  resolve d (byHex h) =
    Ok (match Dict.get (normalize_hex h) (hex_mapping d) with
        | Some data => Found data
        | None => NotFound
        end).
Proof.
  intros Hh. destruct h as [|c h']; [congruence|].
  unfold resolve, byHex, search_term_of.
  cbn [arg_name arg_hex bind]. unfold find_opcode.
  rewrite hex_term_stable, startswith_hex_append, get_hex_mapping.
  reflexivity.
Qed.

(** C6 (as amended). A [--name] query whose lowered, stripped value [s]
    does not begin with "hex:" and is no key of the mnemonic view is
    answered with the records of the mnemonic view whose key contains [s],
    in the order of the dictionary: [Suggestions] when there is one,
    [NotFound] when there is none. *)
Theorem name_query_substring_fallback (q : string) :
  is_hex_key (strip (lower q)) = false ->
  Dict.get (strip (lower q)) (mnemonic_mapping d) = None ->
  find_opcode d q =
    match map snd (filter (fun item => contains (fst item) (strip (lower q)))
                          (mnemonic_mapping d)) with
    | [] => NotFound
    | matches => Suggestions matches
    end.
Proof.
  intros Hhex Hget. unfold find_opcode.
  unfold is_hex_key in Hhex. rewrite Hhex.
  rewrite get_mnemonic_mapping in Hget by exact Hhex.
  now rewrite Hget, scan_matches_filter.
Qed.

(** C9 (as amended). A [--name] query whose lowered, stripped value [s]
    begins with "hex:" is answered from the dictionary under the key [s]
    itself: [Found] when the key is there, [NotFound] when it is not, never
    [Suggestions]. *)
Theorem hex_prefixed_name_query (q : string) :
  is_hex_key (strip (lower q)) = true ->
  resolve d (byName q) =
    Ok (match Dict.get (strip (lower q)) d with
        | Some data => Found data
        | None => NotFound
        end) /\
  forall matches, resolve d (byName q) <> Ok (Suggestions matches).
Proof.
  intros Hhex.
  assert (Hres : resolve d (byName q) = Ok (find_opcode d q)).
  { destruct q as [|c q']; [discriminate Hhex | reflexivity]. }
  assert (Hfind : find_opcode d q =
    match Dict.get (strip (lower q)) d with
    | Some data => Found data
    | None => NotFound
    end).
  { unfold find_opcode. unfold is_hex_key in Hhex. now rewrite Hhex. }
  rewrite Hres, Hfind. split; [reflexivity|].
  intros matches. destruct (Dict.get (strip (lower q)) d); discriminate.
Qed.

End Lookup.

(* ================================================================== *)
(** ** From the command line to the answer *)

Section EndToEnd.
Import PyStr PyStrFacts DictFacts.

(** C5. A [--name] query whose lowered, stripped value is a key of the
    mnemonic view is answered [Found] with the record under that key,
    whatever other keys contain the value: by [find_opcode] on any
    dictionary, and by [main] on any table. *)
Theorem exact_mnemonic_match_found (d : Opcodes) (q : string) (data : OpcodeData) :
  Dict.get (strip (lower q)) (mnemonic_mapping d) = Some data ->
  find_opcode d q = Found data /\
  forall trs, fetch_opcodes trs = Done d ->
              main (byName q) trs = Resolved (Found data).
Proof.
  intros Hget.
  assert (Hkey : is_hex_key (strip (lower q)) = false /\
                 Dict.get (strip (lower q)) d = Some data).
  { destruct (is_hex_key (strip (lower q))) eqn:Hhex.
    - rewrite get_mnemonic_mapping_hex in Hget by exact Hhex. discriminate.
    - rewrite get_mnemonic_mapping in Hget by exact Hhex. now split. }
  destruct Hkey as [Hhex Hd].
  assert (Hfind : find_opcode d q = Found data).
  { unfold find_opcode. unfold is_hex_key in Hhex. now rewrite Hhex, Hd. }
  split; [exact Hfind|].
  intros trs Hfetch. unfold main, parse_ok, byName. cbn [arg_name arg_hex].
  rewrite Hfetch. fold (byName q).
  destruct q as [|c q'].
  - exfalso. exact (fetched_key_nonempty trs d _ _ Hfetch Hd eq_refl).
  - unfold resolve, search_term_of, byName. cbn [arg_name bind].
    now rewrite Hfind.
Qed.

(** C10. [--name ""] and [--hex ""] pass the check of the argument group;
    [main] then fetches, and if the fetch does not exit, stops on the
    unassigned [search_term]: no lookup, no usage error. *)
Theorem empty_value_leaves_search_term_unbound (trs : list (list string)) :
  parse_ok (byName "") = true /\
  parse_ok (byHex "") = true /\
  main (byName "") trs =
    match fetch_opcodes trs with
    | SysExit c => Exited c
    | Done _ => Unhandled (UnboundLocalError "search_term")
    end /\
  main (byHex "") trs =
    match fetch_opcodes trs with
    | SysExit c => Exited c
    | Done _ => Unhandled (UnboundLocalError "search_term")
    end.
Proof.
  unfold main, parse_ok, byName, byHex. cbn [arg_name arg_hex].
  repeat apply conj; try reflexivity;
    now destruct (fetch_opcodes trs).
Qed.

End EndToEnd.

(* ================================================================== *)
(** ** The program on concrete tables *)

Section Scenarios.
Import PyStr.

(** C1 (as amended). On the two rows of the scenario, [--name const/16] is
    answered [Found] with the record of the first row, whose [hex] field is
    the cell as scraped, "0A". *)
Theorem scenario_name_query :
  fetch_opcodes scenario_table = Done scenario_opcodes /\
  main (byName "const/16") scenario_table = Resolved (Found (Entry const16_record)) /\
  hex const16_record = "0A".
Proof. repeat apply conj; reflexivity. Qed.

(** C1 as stated does not hold: no record is both the answer to
    [--name const/16] with [hex] field "0a" and the answer to [--hex 0A]. *)
Lemma scenario_as_stated_fails :
  ~ exists r : OpcodeRecord,
      main (byName "const/16") scenario_table = Resolved (Found (Entry r)) /\
      hex r = "0a" /\
      main (byHex "0A") scenario_table = Resolved (Found (Entry r)).
Proof.
  intros [r [Hname [Hhex _]]].
  vm_compute in Hname. injection Hname as <-. discriminate Hhex.
Qed.

(** C2 at the scenario table: the keys of the hex view are the cells as
    scraped, "0A" and "06"; "0A" is not in lower case and is not the key
    "0a" that the stated normalisation gives, so [--hex 0A], which is looked
    up as "0a", finds nothing. *)
Theorem hex_key_stored_as_scraped :
  fetch_opcodes scenario_table = Done scenario_opcodes /\
  Dict.keys (hex_mapping scenario_opcodes) = ["0A"; "06"] /\
  all_chars is_lower_hex_digit "0A" = false /\
  spec_hex_key "0A" = "0a" /\
  normalize_hex "0A" = "0a" /\
  main (byHex "0A") scenario_table = Resolved NotFound.
Proof. repeat apply conj; reflexivity. Qed.

(** C3 at two tables. A row with a hex cell and no mnemonic, first in the
    table: [name_lower] is still unbound at line 62, and the handler of line
    67 ends the run with [sys.exit(1)]. The same row behind another row:
    its hex key receives the record of the row before it. In neither case is
    [{}] stored. *)
Theorem row_without_mnemonic :
  fetch_opcodes [table_header; ["0A"; ""; "No mnemonic"]] = SysExit 1 /\
  fetch_opcodes [table_header;
                 ["06"; "move-result vx"; "Moves result into vx"; ""];
                 ["0A"; ""; "No mnemonic"]]
    = Done [("move-result", Entry move_result_record);
            ("hex:06", Entry move_result_record);
            ("hex:0A", Entry move_result_record)].
Proof. split; reflexivity. Qed.

(** C4 as stated does not hold: "10x2" has no leading "0x", so the stated
    key is "10x2", which the hex view of [nop_table] does not have; the
    program deletes the inner "0x" and finds the record under "12". *)
Lemma hex_query_inner_0x :
  fetch_opcodes nop_table = Done nop_opcodes /\
  spec_hex_key "10x2" = "10x2" /\
  main (byHex "10x2") nop_table = Resolved (Found (Entry nop_record)) /\
  main (byHex "10x2") nop_table <>
    Resolved (match Dict.get (spec_hex_key "10x2") (hex_mapping nop_opcodes) with
              | Some data => Found data
              | None => NotFound
              end).
Proof. repeat apply conj; try reflexivity. discriminate. Qed.

(** C6 as stated does not hold: "hex:zz" is no mnemonic key of
    [inner_hex_table], the mnemonic key "ahex:zz" contains it, and the
    answer is [NotFound], not [Suggestions]. *)
Lemma hex_prefixed_query_gets_no_suggestions :
  fetch_opcodes inner_hex_table = Done inner_hex_opcodes /\
  Dict.get (strip (lower "hex:zz")) (mnemonic_mapping inner_hex_opcodes) = None /\
  map snd (filter (fun item => contains (fst item) (strip (lower "hex:zz")))
                  (mnemonic_mapping inner_hex_opcodes))
    = [Entry inner_hex_record] /\
  main (byName "hex:zz") inner_hex_table = Resolved NotFound /\
  main (byName "hex:zz") inner_hex_table <>
    Resolved (Suggestions [Entry inner_hex_record]).
Proof. repeat apply conj; try reflexivity. discriminate. Qed.

(** C9 as stated does not hold: the mnemonic "hex:foo" begins with "hex:",
    and [--name hex:foo] finds its record. *)
Lemma hex_named_mnemonic_reachable :
  is_hex_key (strip (lower "hex:foo")) = true /\
  name hex_named_record = "hex:foo" /\
  fetch_opcodes hex_named_table =
    Done [("hex:foo", Entry hex_named_record); ("hex:0A", Entry hex_named_record)] /\
  main (byName "hex:foo") hex_named_table = Resolved (Found (Entry hex_named_record)).
Proof. repeat apply conj; reflexivity. Qed.

End Scenarios.

(* ================================================================== *)
(** ** The theorems at concrete inputs *)

Section Witnesses.
Import PyStr.

Lemma hex_query_direct_lookup_witness :
  "0x06" <> "" /\
  resolve scenario_opcodes (byHex "0x06") = Ok (Found (Entry move_result_record)).
Proof.
  assert (H : "0x06" <> "") by discriminate.
  split; [exact H|].
  exact (hex_query_direct_lookup scenario_opcodes "0x06" H).
Defined.

Lemma exact_mnemonic_match_found_witness :
  Dict.get (strip (lower " CONST ")) (mnemonic_mapping const_opcodes)
    = Some (Entry {| hex := "14"; name := "const"; full_name := "const vx,lit32";
                     explanation := "Puts 32-bit const into vx"; example := "" |}) /\
  find_opcode const_opcodes " CONST "
    = Found (Entry {| hex := "14"; name := "const"; full_name := "const vx,lit32";
                      explanation := "Puts 32-bit const into vx"; example := "" |}).
Proof.
  assert (H : Dict.get (strip (lower " CONST ")) (mnemonic_mapping const_opcodes)
    = Some (Entry {| hex := "14"; name := "const"; full_name := "const vx,lit32";
                     explanation := "Puts 32-bit const into vx"; example := "" |}))
    by reflexivity.
  split; [exact H|].
  exact (proj1 (exact_mnemonic_match_found const_opcodes " CONST " _ H)).
Defined.

Lemma name_query_substring_fallback_witness :
  is_hex_key (strip (lower "Const")) = false /\
  Dict.get (strip (lower "Const")) (mnemonic_mapping scenario_opcodes) = None /\
  find_opcode scenario_opcodes "Const" = Suggestions [Entry const16_record].
Proof.
  assert (H1 : is_hex_key (strip (lower "Const")) = false) by reflexivity.
  assert (H2 : Dict.get (strip (lower "Const")) (mnemonic_mapping scenario_opcodes)
               = None) by reflexivity.
  repeat apply conj; [exact H1 | exact H2 |].
  exact (name_query_substring_fallback scenario_opcodes "Const" H1 H2).
Defined.

Lemma hex_prefixed_name_query_witness :
  is_hex_key (strip (lower "hex:06")) = true /\
  resolve scenario_opcodes (byName "hex:06") = Ok (Found (Entry move_result_record)).
Proof.
  assert (H : is_hex_key (strip (lower "hex:06")) = true) by reflexivity.
  split; [exact H|].
  exact (proj1 (hex_prefixed_name_query scenario_opcodes "hex:06" H)).
Defined.

Lemma mnemonic_is_first_token_witness :
  3 <= List.length ["0A"; " Const/16  vx,lit16 "; "Puts 16-bit const into vx"] /\
  split (nth 1 ["0A"; " Const/16  vx,lit16 "; "Puts 16-bit const into vx"] "")
    = ["Const/16"; "vx,lit16"] /\
  exists st',
    process_row init_state
      ["0A"; " Const/16  vx,lit16 "; "Puts 16-bit const into vx"] = Ok st' /\
    Dict.get "const/16" (opcodes st')
      = Some (Entry {| hex := "0A"; name := "Const/16";
                       full_name := "Const/16  vx,lit16";
                       explanation := "Puts 16-bit const into vx";
                       example := "" |}).
Proof.
  assert (H1 : 3 <= List.length
                 ["0A"; " Const/16  vx,lit16 "; "Puts 16-bit const into vx"])
    by (simpl; lia).
  assert (H2 : split (nth 1 ["0A"; " Const/16  vx,lit16 ";
                              "Puts 16-bit const into vx"] "")
               = ["Const/16"; "vx,lit16"]) by reflexivity.
  repeat apply conj; [exact H1 | exact H2 |].
  destruct (mnemonic_is_first_token init_state _ _ _ H1 H2)
    as [st' [Hrow [_ [Hget _]]]].
  exists st'. split; [exact Hrow | exact Hget].
Defined.

End Witnesses.

(* ================================================================== *)
(** ** More about [strip], [split] and [zfill] *)

Module PyStrMore.
Import PyStr PyStrFacts.

Lemma lstrip_nonspace_head (s : string) (c : ascii) (r : string) :
  lstrip s = String c r -> is_space c = false.
Proof.
  induction s as [|a s' IH]; [discriminate|].
  cbn [lstrip]. destruct (is_space a) eqn:Ha; [exact IH|].
  intros [= <- <-]. exact Ha.
Qed.

Lemma strip_nonspace_head (s : string) (c : ascii) (r : string) :
  strip s = String c r -> is_space c = false.
Proof.
  unfold strip. destruct (lstrip s) as [|a t] eqn:E; [discriminate|].
  pose proof (lstrip_nonspace_head s a t E) as Ha.
  rewrite rstrip_cons_nonspace by exact Ha. now intros [= <- _].
Qed.

Lemma lstrip_cons_nonspace (c : ascii) (r : string) :
  is_space c = false -> lstrip (String c r) = String c r.
Proof. intros H. cbn [lstrip]. now rewrite H. Qed.

Lemma strip_idem (s : string) : strip (strip s) = strip s.
Proof.
  destruct (strip s) as [|c r] eqn:E; [reflexivity|].
  pose proof (strip_nonspace_head s c r E) as Hc.
  unfold strip at 1. rewrite lstrip_cons_nonspace by exact Hc.
  rewrite <- E. apply rstrip_strip.
Qed.

Lemma split_cons_nonspace_nonempty (c : ascii) (r : string) :
  is_space c = false -> split (String c r) <> [].
Proof.
  intros Hc. rewrite split_cons_nonspace by exact Hc.
  destruct (head_is_space r); [discriminate|].
  destruct (split r); discriminate.
Qed.

Lemma split_head_no_space (s t : string) (ts : list string) :
  split s = t :: ts -> no_space t = true.
Proof.
  revert t ts. induction s as [|c r IH]; intros t ts H; [discriminate|].
  destruct (is_space c) eqn:Hc.
  - rewrite split_cons_space in H by exact Hc. eauto.
  - rewrite split_cons_nonspace in H by exact Hc.
    assert (Hone : no_space (String c "") = true)
      by (unfold no_space; cbn [all_chars]; now rewrite Hc).
    destruct (head_is_space r); [now inversion H; subst|].
    destruct (split r) as [|t0 ts0] eqn:E; [now inversion H; subst|].
    inversion H; subst. unfold no_space in *. cbn [all_chars].
    rewrite Hc. cbn [negb andb]. exact (IH t0 _ eq_refl).
Qed.

Lemma is_space_lower_char (c : ascii) : is_space (lower_char c) = is_space c.
Proof. destruct c as [[] [] [] [] [] [] [] []]; reflexivity. Qed.

Lemma no_space_lower (s : string) : no_space (lower s) = no_space s.
Proof.
  unfold no_space. induction s as [|c r IH]; [reflexivity|].
  cbn [lower all_chars]. now rewrite is_space_lower_char, IH.
Qed.

Lemma contains_empty (s : string) : contains s "" = true.
Proof. destruct s; reflexivity. Qed.

Lemma zfill2_length (s : string) : 2 <= String.length (zfill 2 s).
Proof.
  destruct s as [|a [|b r]]; [cbn; lia | | cbn; lia].
  unfold zfill. cbn [String.length Nat.leb Nat.sub zeros].
  destruct (Ascii.eqb a "+" || Ascii.eqb a "-"); cbn; lia.
Qed.

End PyStrMore.

(* ================================================================== *)
(** ** The shape of a fetched index *)

Section IndexShape.
Import PyStr PyStrFacts PyStrMore DictFacts.

Lemma strip_lower_name (r : OpcodeRecord) :
  record_wf r -> strip (lower (name r)) = lower (name r).
Proof.
  intros [_ [Hns _]]. apply QueryFacts.strip_no_space.
  fold (no_space (lower (name r))). now rewrite no_space_lower.
Qed.

Lemma stripped_cell (cols : list string) (i : nat) : stripped (cell cols i).
Proof. apply strip_idem. Qed.

Lemma stripped_empty : stripped "".
Proof. reflexivity. Qed.

(** Line 47 never raises on a stripped cell, and a non-empty result is the
    first word of the cell. *)
Lemma base_name_of_cell_total (cols : list string) :
  exists bn, base_name_of (cell cols 1) = Ok bn /\
             (truthy bn = true -> exists rest, split (cell cols 1) = bn :: rest).
Proof.
  unfold base_name_of. destruct (cell cols 1) as [|c r] eqn:E.
  - exists "". split; [reflexivity | discriminate].
  - cbn [truthy]. pose proof (strip_nonspace_head _ c r E) as Hc.
    destruct (split (String c r)) as [|t ts] eqn:Es.
    + now apply split_cons_nonspace_nonempty in Es.
    + exists t. split; [reflexivity | intros _; now exists ts].
Qed.

Lemma item_wf_mono (d d' : Opcodes) (item : string * OpcodeData) :
  (forall k, Dict.mem k d = true -> Dict.mem k d' = true) ->
  item_wf d item -> item_wf d' item.
Proof.
  intros Hmono [r [Hv [Hr [Hk Hm]]]]. exists r.
  split; [exact Hv|]. split; [exact Hr|]. split; [exact Hk|]. now apply Hmono.
Qed.

Lemma index_wf_set (d : Opcodes) (k : string) (r : OpcodeRecord) :
  index_wf d -> record_wf r ->
  (is_hex_key k = false -> k = lower (name r)) ->
  Dict.mem (lower (name r)) (Dict.set k (Entry r) d) = true ->
  index_wf (Dict.set k (Entry r) d).
Proof.
  intros Hd Hr Hk Hm. unfold index_wf. apply Forall_set.
  - exists r. split; [reflexivity|]. split; [exact Hr|].
    split; [exact Hk | exact Hm].
  - revert Hd. unfold index_wf. apply Forall_impl. intros item.
    apply item_wf_mono. intros k'. apply mem_set.
Qed.

Lemma store_by_name_wf
    (st : LoopState) (opcode_hex opcode_name expl ex base_name : string) :
  stripped opcode_hex -> stripped opcode_name -> stripped expl -> stripped ex ->
  (truthy base_name = true -> exists rest, split opcode_name = base_name :: rest) ->
  loop_wf st ->
  loop_wf (store_by_name st opcode_hex opcode_name expl ex base_name).
Proof.
  intros Hh Hn He Hx Hsplit [Hd Hnl]. unfold store_by_name.
  destruct (truthy base_name) eqn:Hb; [|now split].
  destruct (Hsplit eq_refl) as [rest Hrest].
  split; cbn [opcodes name_lower].
  - apply index_wf_set; cbn [name]; auto.
    + unfold record_wf. cbn [name hex full_name explanation example].
      split; [now apply truthy_true_iff|].
      split; [exact (split_head_no_space _ _ _ Hrest)|].
      split; [exact Hh|]. split; [exact Hn|]. split; [exact He|].
      split; [exact Hx|]. now exists rest.
    + unfold Dict.mem. now rewrite get_set_same.
  - intros nl [= <-]. unfold Dict.mem. now rewrite get_set_same.
Qed.

Lemma store_by_hex_wf (st st' : LoopState) (opcode_hex : string) :
  loop_wf st -> store_by_hex st opcode_hex = Ok st' -> loop_wf st'.
Proof.
  intros [Hd Hnl]. unfold store_by_hex.
  destruct (truthy opcode_hex); [|intros [= <-]; now split].
  destruct (name_lower st) as [nl|] eqn:E; [|discriminate].
  intros [= <-]. specialize (Hnl nl eq_refl).
  unfold Dict.mem in Hnl. unfold Dict.get_default.
  destruct (Dict.get nl (opcodes st)) as [v|] eqn:G; [|discriminate].
  pose proof (get_In _ _ _ G) as Hin.
  unfold index_wf in Hd. pose proof Hd as Hall.
  rewrite Forall_forall in Hall. destruct (Hall _ Hin) as [r [Hv [Hr [_ Hm]]]].
  cbn [snd] in Hv. subst v.
  split; cbn [opcodes name_lower].
  - apply index_wf_set; auto.
    + intros Hk. exfalso. revert Hk.
      change (is_hex_key ("hex:" ++ opcode_hex)) with true. discriminate.
    + now apply mem_set.
  - intros nl' [= <-]. apply mem_set. unfold Dict.mem. now rewrite G.
Qed.

Lemma process_row_wf (st st' : LoopState) (cols : list string) :
  loop_wf st -> process_row st cols = Ok st' -> loop_wf st'.
Proof.
  intros Hwf. unfold process_row.
  destruct (3 <=? List.length cols)%nat; [|now intros [= <-]].
  destruct (base_name_of_cell_total cols) as [bn [Hbn Hsplit]].
  rewrite Hbn. cbn [bind]. apply store_by_hex_wf, store_by_name_wf; auto.
  - apply stripped_cell.
  - apply stripped_cell.
  - destruct (2 <? List.length cols)%nat; [apply stripped_cell | apply stripped_empty].
  - destruct (3 <? List.length cols)%nat; [apply stripped_cell | apply stripped_empty].
Qed.

Lemma process_rows_wf (rows : list (list string)) :
  forall st st', loop_wf st -> process_rows st rows = Ok st' -> loop_wf st'.
Proof.
  induction rows as [|cols rows IH]; intros st st' Hwf; cbn [process_rows].
  - now intros [= <-].
  - destruct (process_row st cols) as [st1|e] eqn:E; cbn [bind]; [|discriminate].
    apply IH. exact (process_row_wf _ _ _ Hwf E).
Qed.

Lemma fetched_index_wf (trs : list (list string)) (d : Opcodes) :
  fetch_opcodes trs = Done d -> index_wf d.
Proof.
  unfold fetch_opcodes.
  destruct (process_rows init_state (tl trs)) as [st|e] eqn:E; [|discriminate].
  intros [= <-].
  refine (proj1 (process_rows_wf _ _ _ _ E)).
  split; [constructor | discriminate].
Qed.

Lemma fetched_item (trs : list (list string)) (d : Opcodes) (k : string)
    (v : OpcodeData) :
  fetch_opcodes trs = Done d -> In (k, v) d -> item_wf d (k, v).
Proof.
  intros Hf Hin. apply fetched_index_wf in Hf. unfold index_wf in Hf.
  rewrite Forall_forall in Hf. exact (Hf _ Hin).
Qed.

Lemma mnemonic_mapping_In (d : Opcodes) (k : string) (v : OpcodeData) :
  In (k, v) (mnemonic_mapping d) <-> In (k, v) d /\ is_hex_key k = false.
Proof.
  unfold mnemonic_mapping. rewrite filter_In. cbn [fst].
  now rewrite negb_true_iff.
Qed.

Lemma filter_contains_empty (d : Opcodes) :
  filter (fun item : string * OpcodeData => contains (fst item) "") d = d.
Proof.
  induction d as [|[k v] d IH]; [reflexivity|].
  cbn [filter fst]. now rewrite contains_empty, IH.
Qed.

(** X1. Whatever the table, every entry of the fetched index has a
    non-empty key and holds a filled record: its mnemonic is one non-empty
    word, the first word of its full syntax; its cells carry no surrounding
    whitespace; and a key without the hex prefix is the lowered mnemonic of
    its record. *)
Theorem fetched_entry_well_formed
    (trs : list (list string)) (d : Opcodes) (k : string) (v : OpcodeData) :
  fetch_opcodes trs = Done d ->
  Dict.get k d = Some v ->
  k <> "" /\
  exists r, v = Entry r /\ record_wf r /\
            (is_hex_key k = false -> k = lower (name r)).
Proof.
  intros Hf Hg. split; [exact (fetched_key_nonempty _ _ _ _ Hf Hg)|].
  destruct (fetched_item _ _ _ _ Hf (get_In _ _ _ Hg)) as [r [Hv [Hr [Hk _]]]].
  exists r. split; [exact Hv|]. split; [exact Hr | exact Hk].
Qed.

(** X2. Every record of a fetched index, under whatever key it is stored,
    is found by a [--name] query for its own mnemonic: [find_opcode] returns
    [Found], and so does [main]. *)
Theorem stored_record_found_by_own_name
    (trs : list (list string)) (d : Opcodes) (k : string) (r : OpcodeRecord) :
  fetch_opcodes trs = Done d ->
  Dict.get k d = Some (Entry r) ->
  exists data,
    find_opcode d (name r) = Found data /\
    main (byName (name r)) trs = Resolved (Found data).
Proof.
  intros Hf Hg.
  destruct (fetched_item _ _ _ _ Hf (get_In _ _ _ Hg)) as [r' [Hv [Hr [_ Hm]]]].
  cbn [snd] in Hv. injection Hv as <-.
  unfold Dict.mem in Hm.
  destruct (Dict.get (lower (name r)) d) as [data|] eqn:G; [|discriminate].
  assert (Hfind : find_opcode d (name r) = Found data).
  { unfold find_opcode. rewrite (strip_lower_name r Hr), G.
    now destruct (startswith (lower (name r)) "hex:"). }
  exists data. split; [exact Hfind|].
  unfold main, parse_ok, byName. cbn [arg_name arg_hex]. rewrite Hf.
  destruct (name r) as [|c n] eqn:En; [now destruct Hr|].
  unfold resolve, search_term_of. cbn [arg_name bind]. now rewrite Hfind.
Qed.

(** X3. On a fetched index, when [find_opcode] gives suggestions there is
    at least one, and each is a filled record whose lowered mnemonic
    contains the lowered, stripped query. *)
Theorem suggestions_contain_query
    (trs : list (list string)) (d : Opcodes) (q : string)
    (matches : list OpcodeData) :
  fetch_opcodes trs = Done d ->
  find_opcode d q = Suggestions matches ->
  matches <> [] /\
  Forall (fun m => exists r, m = Entry r /\
                   contains (lower (name r)) (strip (lower q)) = true) matches.
Proof.
  intros Hf. unfold find_opcode.
  destruct (startswith (strip (lower q)) "hex:");
    [destruct (Dict.get (strip (lower q)) d); discriminate|].
  destruct (Dict.get (strip (lower q)) d); [discriminate|].
  destruct (scan_matches (strip (lower q)) d) as [|m ms] eqn:E; [discriminate|].
  intros [= <-]. split; [discriminate|].
  rewrite <- E, scan_matches_filter. apply Forall_forall. intros x Hx.
  apply in_map_iff in Hx as [[k v] [Hsnd Hin]]. cbn [snd] in Hsnd. subst x.
  apply filter_In in Hin as [Hin Hc]. cbn [fst] in Hc.
  apply mnemonic_mapping_In in Hin as [Hin Hk].
  destruct (fetched_item _ _ _ _ Hf Hin) as [r [Hv [_ [Hkey _]]]].
  exists r. split; [exact Hv|]. cbn [fst] in Hkey. now rewrite <- (Hkey Hk).
Qed.

(** X4. On a fetched index, a query that is empty once stripped (blanks
    only) matches every mnemonic: the answer is the list of all records of
    the mnemonic view, in order, or [NotFound] when there is none. *)
Theorem blank_query_lists_every_mnemonic
    (trs : list (list string)) (d : Opcodes) (q : string) :
  fetch_opcodes trs = Done d ->
  strip (lower q) = "" ->
  find_opcode d q =
    match map snd (mnemonic_mapping d) with
    | [] => NotFound
    | matches => Suggestions matches
    end.
Proof.
  intros Hf Hq. unfold find_opcode. rewrite Hq.
  change (startswith "" "hex:") with false. cbn iota.
  destruct (Dict.get "" d) as [v|] eqn:G.
  - now destruct (fetched_key_nonempty _ _ _ _ Hf G).
  - now rewrite scan_matches_filter, filter_contains_empty.
Qed.

End IndexShape.

(* ================================================================== *)
(** ** Which row writes which key *)

Section RowWrites.
Import PyStr PyStrFacts PyStrMore DictFacts.

Lemma process_row_named
    (st : LoopState) (cols : list string) (tok : string) (rest : list string) :
  has_three_cells cols = true ->
  split (nth 1 cols "") = tok :: rest ->
  exists st',
    process_row st cols = Ok st' /\
    name_lower st' = Some (lower tok) /\
    Dict.get (lower tok) (opcodes st') = Some (Entry (record_of_row cols tok)).
Proof.
  intros H3 Hsplit. unfold process_row. unfold has_three_cells in H3.
  assert (H2 : (2 <? List.length cols)%nat = true).
  { apply Nat.leb_le in H3. apply Nat.ltb_lt. lia. }
  rewrite H3, H2, (base_name_of_cell cols tok rest Hsplit). cbn [bind].
  unfold store_by_name. rewrite (split_head_truthy _ _ _ Hsplit).
  unfold store_by_hex. cbn [name_lower opcodes].
  destruct (truthy (cell cols 0)).
  - eexists. split; [reflexivity|]. cbn [opcodes name_lower].
    split; [reflexivity|].
    unfold Dict.get_default. rewrite get_set_same.
    apply get_set_keeps, get_set_same.
  - eexists. split; [reflexivity|]. cbn [opcodes name_lower].
    split; [reflexivity | apply get_set_same].
Qed.

Lemma process_row_frame (st st' : LoopState) (cols : list string) (k : string) :
  process_row st cols = Ok st' ->
  row_writes cols k = false ->
  Dict.get k (opcodes st') = Dict.get k (opcodes st).
Proof.
  unfold process_row, row_writes, has_three_cells.
  destruct (3 <=? List.length cols)%nat; [|now intros [= <-]].
  cbn [andb]. destruct (base_name_of_cell_total cols) as [bn [Hbn Hsplit]].
  rewrite Hbn. cbn [bind]. intros Hrow Hw.
  apply orb_false_iff in Hw as [Hw1 Hw2].
  assert (Hname : Dict.get k (opcodes (store_by_name st (cell cols 0) (cell cols 1)
             (if (2 <? List.length cols)%nat then cell cols 2 else "")
             (if (3 <? List.length cols)%nat then cell cols 3 else "") bn))
           = Dict.get k (opcodes st)).
  { unfold store_by_name. destruct (truthy bn) eqn:Hb; [|reflexivity].
    destruct (Hsplit eq_refl) as [rest Hrest]. rewrite Hrest in Hw1.
    cbn [opcodes]. apply get_set_other. apply String.eqb_neq in Hw1. congruence. }
  rewrite <- Hname. revert Hrow. unfold store_by_hex.
  destruct (truthy (cell cols 0)); [|now intros [= <-]].
  cbn [andb] in Hw2. apply String.eqb_neq in Hw2.
  match goal with |- context [name_lower ?s] => destruct (name_lower s) end;
    [|discriminate].
  intros [= <-]. cbn [opcodes]. apply get_set_other.
  exact (fun Heq => Hw2 (eq_sym Heq)).
Qed.

Lemma process_rows_frame (rows : list (list string)) (k : string) :
  forall st st',
    process_rows st rows = Ok st' ->
    Forall (fun cols => row_writes cols k = false) rows ->
    Dict.get k (opcodes st') = Dict.get k (opcodes st).
Proof.
  induction rows as [|cols rows IH]; intros st st'; cbn [process_rows].
  - now intros [= <-].
  - destruct (process_row st cols) as [st1|e] eqn:E; cbn [bind]; [|discriminate].
    intros Hrows Hall. inversion Hall as [|? ? Hc Hr]; subst.
    rewrite (IH _ _ Hrows Hr). exact (process_row_frame _ _ _ _ E Hc).
Qed.

Lemma process_rows_app (a b : list (list string)) :
  forall st, process_rows st (a ++ b)%list
             = (st1 <- process_rows st a ;; process_rows st1 b).
Proof.
  induction a as [|cols a IH]; intros st; [reflexivity|].
  cbn [app process_rows]. destruct (process_row st cols); cbn [bind]; auto.
Qed.

(** X5. Last row wins: when a row of at least three cells has [tok] as the
    first word of column 1 and no later row assigns to the key [lower tok],
    the fetched index holds, under that key, the record built from that row,
    whatever rows came before. *)
Theorem last_named_row_wins
    (header : list string) (before later : list (list string))
    (row : list string) (tok : string) (rest : list string) (d : Opcodes) :
  fetch_opcodes (header :: before ++ row :: later) = Done d ->
  has_three_cells row = true ->
  split (nth 1 row "") = tok :: rest ->
  Forall (fun cols => row_writes cols (lower tok) = false) later ->
  Dict.get (lower tok) d = Some (Entry (record_of_row row tok)).
Proof.
  unfold fetch_opcodes. cbn [tl]. rewrite process_rows_app.
  destruct (process_rows init_state before) as [st0|e] eqn:E0; cbn [bind];
    [|discriminate].
  cbn [process_rows]. intros Hf H3 Hsplit Hlater.
  destruct (process_row_named st0 row tok rest H3 Hsplit) as [st1 [Hrow [_ Hget]]].
  rewrite Hrow in Hf. cbn [bind] in Hf.
  destruct (process_rows st1 later) as [st2|e] eqn:E2; [|discriminate].
  injection Hf as <-.
  now rewrite (process_rows_frame _ _ _ _ E2 Hlater).
Qed.

(** *** When the loop stops *)

Lemma process_row_bound (st : LoopState) (cols : list string) (nl : string) :
  name_lower st = Some nl ->
  exists st' nl', process_row st cols = Ok st' /\ name_lower st' = Some nl'.
Proof.
  intros Hnl. unfold process_row.
  destruct (3 <=? List.length cols)%nat; [|eauto].
  destruct (base_name_of_cell_total cols) as [bn [Hbn _]].
  rewrite Hbn. cbn [bind]. unfold store_by_hex, store_by_name.
  destruct (truthy bn); cbn [name_lower opcodes];
    destruct (truthy (cell cols 0)); rewrite ?Hnl;
    do 2 eexists; (split; [reflexivity|]); cbn [name_lower];
    first [reflexivity | exact Hnl].
Qed.

Lemma process_rows_bound (rows : list (list string)) :
  forall st nl, name_lower st = Some nl -> exists st', process_rows st rows = Ok st'.
Proof.
  induction rows as [|cols rows IH]; intros st nl Hnl; cbn [process_rows]; [eauto|].
  destruct (process_row_bound st cols nl Hnl) as [st1 [nl1 [Hrow Hnl1]]].
  rewrite Hrow. cbn [bind]. exact (IH st1 nl1 Hnl1).
Qed.

Lemma first_kept_row (rows post : list (list string)) (row : list string) :
  filter has_three_cells rows = row :: post -> has_three_cells row = true.
Proof.
  intros H.
  assert (Hin : In row (filter has_three_cells rows)) by (rewrite H; now left).
  now apply filter_In in Hin.
Qed.

(** X6. When the first row of at least three cells has a word in column 1,
    the loop runs to its end whatever the other rows are: [fetch_opcodes]
    returns an index. *)
Theorem fetch_succeeds_when_first_row_named
    (header : list string) (rows post : list (list string))
    (row : list string) (tok : string) (rest : list string) :
  filter has_three_cells rows = row :: post ->
  split (nth 1 row "") = tok :: rest ->
  exists d, fetch_opcodes (header :: rows) = Done d.
Proof.
  intros Hfilter Hsplit. unfold fetch_opcodes. cbn [tl].
  rewrite process_rows_filter, Hfilter. cbn [process_rows].
  destruct (process_row_named init_state row tok rest
              (first_kept_row _ _ _ Hfilter) Hsplit) as [st1 [Hrow [Hnl _]]].
  rewrite Hrow. cbn [bind].
  destruct (process_rows_bound post st1 _ Hnl) as [st2 Hrows].
  rewrite Hrows. eauto.
Qed.

(** X7. When the first row of at least three cells has an empty column 1
    and a non-empty hex cell, line 62 reads [name_lower] before any
    assignment, and [fetch_opcodes] ends the run with [sys.exit(1)]. *)
Theorem fetch_exits_when_first_row_unnamed
    (header : list string) (rows post : list (list string)) (row : list string) :
  filter has_three_cells rows = row :: post ->
  cell row 1 = "" ->
  cell row 0 <> "" ->
  fetch_opcodes (header :: rows) = SysExit 1.
Proof.
  intros Hfilter Hname Hhex. unfold fetch_opcodes. cbn [tl].
  rewrite process_rows_filter, Hfilter. cbn [process_rows].
  pose proof (first_kept_row _ _ _ Hfilter) as H3. unfold has_three_cells in H3.
  unfold process_row. rewrite H3, Hname. cbn [base_name_of truthy bind].
  unfold store_by_name. cbn [truthy]. unfold store_by_hex.
  apply truthy_true_iff in Hhex. rewrite Hhex. reflexivity.
Qed.

End RowWrites.

(* ================================================================== *)
(** ** The key of a hex query *)

Section HexKey.
Import PyStr PyStrFacts PyStrMore DictFacts QueryFacts.

Lemma hex_key_injective (a b : string) : "hex:" ++ a = "hex:" ++ b -> a = b.
Proof. now intros [= ->]. Qed.

(** X8. A hex entry whose key has a character that [lower] changes, or
    fewer than two characters, is out of reach of [--hex]: whatever is
    stored under it, every hex query is answered as without it. *)
Theorem unnormalized_hex_key_unreachable
    (d : Opcodes) (key : string) (v : OpcodeData) (h : string) :
  all_chars lowered_char key = false \/ String.length key < 2 ->
  resolve (Dict.set ("hex:" ++ key) v d) (byHex h) = resolve d (byHex h).
Proof.
  intros Hkey. destruct h as [|c h']; [reflexivity|].
  unfold resolve, byHex, search_term_of. cbn [arg_name arg_hex bind].
  unfold find_opcode. rewrite hex_term_stable, startswith_hex_append.
  rewrite get_set_other; [reflexivity|].
  intros Heq. apply hex_key_injective in Heq.
  destruct Hkey as [Hlow|Hlen].
  - rewrite <- Heq, normalize_hex_lowered in Hlow. discriminate.
  - rewrite <- Heq in Hlen. unfold normalize_hex in Hlen.
    pose proof (zfill2_length
      (strip (replace_0x_empty (lower (String c h'))))). lia.
Qed.

End HexKey.

(* ================================================================== *)
(** ** The further theorems at concrete inputs *)

Section MoreWitnesses.
Import PyStr.

Lemma fetched_entry_well_formed_witness :
  fetch_opcodes scenario_table = Done scenario_opcodes /\
  Dict.get "hex:06" scenario_opcodes = Some (Entry move_result_record) /\
  ("hex:06" <> "" /\
   exists r, Entry move_result_record = Entry r /\ record_wf r /\
             (is_hex_key "hex:06" = false -> "hex:06" = lower (name r))).
Proof.
  assert (H1 : fetch_opcodes scenario_table = Done scenario_opcodes) by reflexivity.
  assert (H2 : Dict.get "hex:06" scenario_opcodes = Some (Entry move_result_record))
    by reflexivity.
  exact (conj H1 (conj H2 (fetched_entry_well_formed _ _ _ _ H1 H2))).
Defined.

Lemma stored_record_found_by_own_name_witness :
  fetch_opcodes scenario_table = Done scenario_opcodes /\
  Dict.get "hex:0A" scenario_opcodes = Some (Entry const16_record) /\
  exists data,
    find_opcode scenario_opcodes (name const16_record) = Found data /\
    main (byName (name const16_record)) scenario_table = Resolved (Found data).
Proof.
  assert (H1 : fetch_opcodes scenario_table = Done scenario_opcodes) by reflexivity.
  assert (H2 : Dict.get "hex:0A" scenario_opcodes = Some (Entry const16_record))
    by reflexivity.
  exact (conj H1 (conj H2 (stored_record_found_by_own_name _ _ _ _ H1 H2))).
Defined.

Lemma suggestions_contain_query_witness :
  fetch_opcodes scenario_table = Done scenario_opcodes /\
  find_opcode scenario_opcodes "RESULT" = Suggestions [Entry move_result_record] /\
  [Entry move_result_record] <> [] /\
  Forall (fun m => exists r, m = Entry r /\
                   contains (lower (name r)) (strip (lower "RESULT")) = true)
         [Entry move_result_record].
Proof.
  assert (H1 : fetch_opcodes scenario_table = Done scenario_opcodes) by reflexivity.
  assert (H2 : find_opcode scenario_opcodes "RESULT"
               = Suggestions [Entry move_result_record]) by reflexivity.
  exact (conj H1 (conj H2 (suggestions_contain_query _ _ _ _ H1 H2))).
Defined.

Lemma blank_query_lists_every_mnemonic_witness :
  fetch_opcodes scenario_table = Done scenario_opcodes /\
  strip (lower "  ") = "" /\
  find_opcode scenario_opcodes "  "
    = Suggestions [Entry const16_record; Entry move_result_record].
Proof.
  assert (H1 : fetch_opcodes scenario_table = Done scenario_opcodes) by reflexivity.
  assert (H2 : strip (lower "  ") = "") by reflexivity.
  exact (conj H1 (conj H2 (blank_query_lists_every_mnemonic _ _ _ H1 H2))).
Defined.

Lemma last_named_row_wins_witness :
  fetch_opcodes repeated_table = Done repeated_opcodes /\
  has_three_cells new_const16_row = true /\
  split (nth 1 new_const16_row "") = ["Const/16"; "vx,lit16"] /\
  Forall (fun cols => row_writes cols (lower "Const/16") = false) [return_void_row] /\
  Dict.get "const/16" repeated_opcodes = Some (Entry new_const16_record).
Proof.
  assert (H1 : fetch_opcodes repeated_table = Done repeated_opcodes) by reflexivity.
  assert (H2 : has_three_cells new_const16_row = true) by reflexivity.
  assert (H3 : split (nth 1 new_const16_row "") = ["Const/16"; "vx,lit16"])
    by reflexivity.
  assert (H4 : Forall (fun cols => row_writes cols (lower "Const/16") = false)
                      [return_void_row]) by (repeat constructor).
  exact (conj H1 (conj H2 (conj H3 (conj H4
    (last_named_row_wins table_header [old_const16_row] [return_void_row]
       new_const16_row "Const/16" ["vx,lit16"] repeated_opcodes H1 H2 H3 H4))))).
Defined.

Lemma fetch_succeeds_when_first_row_named_witness :
  filter has_three_cells (["0A"; "no name"] :: tl scenario_table)
    = tl scenario_table /\
  split (nth 1 ["0A"; "const/16 vx,lit16"; "Puts 16-bit const into vx"; ""] "")
    = ["const/16"; "vx,lit16"] /\
  exists d, fetch_opcodes (table_header :: ["0A"; "no name"] :: tl scenario_table)
            = Done d.
Proof.
  assert (H1 : filter has_three_cells (["0A"; "no name"] :: tl scenario_table)
               = ["0A"; "const/16 vx,lit16"; "Puts 16-bit const into vx"; ""]
                 :: [["06"; "move-result vx"; "Moves result into vx"; ""]])
    by reflexivity.
  assert (H2 : split (nth 1 ["0A"; "const/16 vx,lit16";
                              "Puts 16-bit const into vx"; ""] "")
               = ["const/16"; "vx,lit16"]) by reflexivity.
  exact (conj H1 (conj H2
    (fetch_succeeds_when_first_row_named table_header _ _ _ _ _ H1 H2))).
Defined.

Lemma fetch_exits_when_first_row_unnamed_witness :
  filter has_three_cells (["x"] :: ["0A"; " "; "No mnemonic"] :: tl scenario_table)
    = ["0A"; " "; "No mnemonic"] :: tl scenario_table /\
  cell ["0A"; " "; "No mnemonic"] 1 = "" /\
  cell ["0A"; " "; "No mnemonic"] 0 <> "" /\
  fetch_opcodes (table_header :: ["x"] :: ["0A"; " "; "No mnemonic"]
                   :: tl scenario_table) = SysExit 1.
Proof.
  assert (H1 : filter has_three_cells
                 (["x"] :: ["0A"; " "; "No mnemonic"] :: tl scenario_table)
               = ["0A"; " "; "No mnemonic"] :: tl scenario_table) by reflexivity.
  assert (H2 : cell ["0A"; " "; "No mnemonic"] 1 = "") by reflexivity.
  assert (H3 : cell ["0A"; " "; "No mnemonic"] 0 <> "") by discriminate.
  exact (conj H1 (conj H2 (conj H3
    (fetch_exits_when_first_row_unnamed table_header _ _ _ H1 H2 H3)))).
Defined.

Lemma unnormalized_hex_key_unreachable_witness :
  (all_chars lowered_char "0A" = false \/ String.length "0A" < 2) /\
  resolve (Dict.set ("hex:" ++ "0A") EmptyDict scenario_opcodes) (byHex "0A")
    = resolve scenario_opcodes (byHex "0A").
Proof.
  assert (H : all_chars lowered_char "0A" = false \/ String.length "0A" < 2)
    by (left; reflexivity).
  exact (conj H (unnormalized_hex_key_unreachable scenario_opcodes "0A"
                   EmptyDict "0A" H)).
Defined.

End MoreWitnesses.
